(** * Button widgets of bokeh/models/widgets/buttons.py

    A shallow embedding of the button-like widget models [Button], [Toggle]
    and [Dropdown]: their declared properties, their defaults, and the
    deprecated [on_click] / [js_on_click] methods, which delegate to the
    event and change-callback facilities of the base classes. *)

From Stdlib Require Import Ascii String ZArith.
From stdpp Require Import gmap strings list fin_maps.

Set Warnings "-register-all".

Open Scope string_scope.
Open Scope list_scope.

(** ** Python values *)

(** The values that reach this module: property values, handlers and the
    model instances ([Callback], [AbstractIcon]) that properties refer to. *)
Inductive pyval : Type :=
| VNone
| VBool (b : bool)
| VInt (n : Z)
| VStr (s : string)
| VTuple (items : list pyval)
| VList (items : list pyval)
(* an instance of a model class; [mro] lists its class and its ancestors *)
| VInst (mro : list string) (oid : nat)
(* a function object defined by the caller *)
| VFunc (fid : nat)
(* the closure [lambda attr, old, new: handler(new)] of [Toggle.on_click] *)
| VLambdaNew (handler : pyval).

Inductive exn : Type :=
| ValueError (msg : string)
| TypeError (msg : string)
| AttributeError (msg : string).

(** ** Computations: state passing with exceptions *)

Inductive outcome (A : Type) : Type :=
| Return (a : A)
| Raise (e : exn).
Arguments Return {A} a.
Arguments Raise {A} e.

(** A statement runs in a state and leaves a state, also when it raises. *)
Definition M (St A : Type) : Type := St -> outcome A * St.

#[global] Instance M_ret {St} : MRet (M St) :=
  fun A (a : A) s => (Return a, s).

#[global] Instance M_bind {St} : MBind (M St) :=
  fun A B (k : A -> M St B) (m : M St A) s =>
    match m s with
    | (Return a, s') => k a s'
    | (Raise e, s') => (Raise e, s')
    end.

Definition raise {St A} (e : exn) : M St A := fun s => (Raise e, s).

Definition result {St A} (r : outcome A * St) : outcome A := fst r.
Definition final {St A} (r : outcome A * St) : St := snd r.

(** ** Events and the facilities of the base classes *)

(** The two event classes imported from [...events]. *)
Inductive event : Type := ButtonClick | MenuItemClick.

(** Modelled from the spec: the [event_name] attribute of the event classes,
    declared in [bokeh/events.py]; the names are the ones the deprecation
    messages of this file quote. *)
Definition event_name (e : event) : string :=
  match e with
  | ButtonClick => "button_click"
  | MenuItemClick => "menu_item_click"
  end.

Definition version : Type := nat * nat * nat.

(** What the methods of this file call on [self] and on the deprecation
    utility.  The implementations belong to the base classes; a [Framework]
    is any implementation of them over a state [St]. *)
Class Framework (St : Type) : Type := {
  deprecated : version -> string -> string -> M St pyval;
  on_event : event -> pyval -> M St pyval;
  js_on_event : event -> pyval -> M St pyval;
  on_change : string -> pyval -> M St pyval;
  js_on_change : string -> pyval -> M St pyval
}.

Definition dq : string := String "034"%char EmptyString.

(** [quoted s] is [s] between double quotes. *)
Definition quoted (s : string) : string := dq +:+ s +:+ dq.

(** ** The widgets' methods *)

Inductive widget_class : Type := Button | Toggle | Dropdown.

Inductive click_method : Type := on_click | js_on_click.

Module Button.
Section methods.
Context {St : Type} {F : Framework St}.

Definition on_click (handler : pyval) : M St pyval :=
  deprecated (3, 0, 0) "on_click(handler)"
    ("on_event(" +:+ quoted "button_click" +:+ ", handler)") ;;
  on_event ButtonClick handler ;;
  mret VNone.

Definition js_on_click (handler : pyval) : M St pyval :=
  deprecated (3, 0, 0) "js_on_click(handler)"
    ("js_on_event(" +:+ quoted "button_click" +:+ ", handler)") ;;
  js_on_event ButtonClick handler ;;
  mret VNone.

End methods.
End Button.

Module Toggle.
Section methods.
Context {St : Type} {F : Framework St}.

Definition on_click (handler : pyval) : M St pyval :=
  deprecated (3, 0, 0) "on_click(handler)"
    ("on_event(" +:+ quoted "button_click" +:+ ", handler)") ;;
  on_change "active" (VLambdaNew handler) ;;
  mret VNone.

Definition js_on_click (handler : pyval) : M St pyval :=
  deprecated (3, 0, 0) "js_on_click(handler)"
    ("js_on_event(" +:+ quoted "button_click" +:+ ", handler)") ;;
  js_on_change "active" handler ;;
  mret VNone.

End methods.
End Toggle.

Module Dropdown.
Section methods.
Context {St : Type} {F : Framework St}.

Definition on_click (handler : pyval) : M St pyval :=
  deprecated (3, 0, 0) "on_click(handler)"
    ("on_event(" +:+ quoted "button_click" +:+ ", handler) OR on_event("
       +:+ quoted "menu_item_click" +:+ ", handler)") ;;
  on_event ButtonClick handler ;;
  on_event MenuItemClick handler ;;
  mret VNone.

Definition js_on_click (handler : pyval) : M St pyval :=
  deprecated (3, 0, 0) "js_on_click(handler)"
    ("js_on_event(" +:+ quoted "button_click" +:+ ", handler) OR js_on_event("
       +:+ quoted "menu_item_click" +:+ ", handler)") ;;
  js_on_event ButtonClick handler ;;
  js_on_event MenuItemClick handler ;;
  mret VNone.

End methods.
End Dropdown.

(** Method lookup: [invoke c m] is the method [m] of class [c]. *)
Definition invoke {St : Type} {F : Framework St}
    (c : widget_class) (m : click_method) : pyval -> M St pyval :=
  match c, m with
  | Button, on_click => Button.on_click
  | Button, js_on_click => Button.js_on_click
  | Toggle, on_click => Toggle.on_click
  | Toggle, js_on_click => Toggle.js_on_click
  | Dropdown, on_click => Dropdown.on_click
  | Dropdown, js_on_click => Dropdown.js_on_click
  end.

(** ** The calls a method makes *)

(** One call to a facility of the base classes, with its arguments. *)
Inductive call : Type :=
| Call_deprecated (since : version) (old new : string)
| Call_on_event (e : event) (handler : pyval)
| Call_js_on_event (e : event) (handler : pyval)
| Call_on_change (attr : string) (callback : pyval)
| Call_js_on_change (attr : string) (callback : pyval).

Definition record_call (c : call) : M (list call) pyval :=
  fun log => (Return VNone, log ++ [c]).

(** The framework that only records, in order, the calls made to it. *)
Definition recording : Framework (list call) := {|
  deprecated since old new := record_call (Call_deprecated since old new);
  on_event e h := record_call (Call_on_event e h);
  js_on_event e h := record_call (Call_js_on_event e h);
  on_change attr cb := record_call (Call_on_change attr cb);
  js_on_change attr cb := record_call (Call_js_on_change attr cb)
|}.

(** The calls of a method invocation, in program order. *)
Definition calls_of (c : widget_class) (m : click_method) (handler : pyval)
    : list call :=
  final (invoke (F := recording) c m handler []).

Definition is_deprecation (c : call) : bool :=
  match c with Call_deprecated _ _ _ => true | _ => false end.

(** ** The property system *)

Module properties.

(** The property types this file imports from [...core.properties]. *)
Inductive property : Type :=
| Bool
| String
| Null
| Enum (values : list string)
| Instance (cls : string)
| Nullable (p : property)
| List (item : property)
| Tuple (params : list property)
| Either (params : list property).

(** Modelled from the spec: validation of a value against a property type,
    done by [bokeh/core/property/], which is not part of this file.  [Bool]
    takes booleans, [String] text, [Null] only [None], [Enum] one of its
    values, [Instance] an instance of the class or of a subclass, [Nullable]
    also [None], [List] a list of valid items, [Tuple] a sequence of the
    declared length whose components are valid in order, [Either] a value
    valid for one of its alternatives. *)
Fixpoint is_valid (p : property) (v : pyval) {struct p} : bool :=
  match p with
  | Bool => match v with VBool _ => true | _ => false end
  | String => match v with VStr _ => true | _ => false end
  | Null => match v with VNone => true | _ => false end
  | Enum values =>
      match v with VStr s => bool_decide (s ∈ values) | _ => false end
  | Instance cls =>
      match v with VInst mro _ => bool_decide (cls ∈ mro) | _ => false end
  | Nullable q =>
      match v with VNone => true | _ => is_valid q v end
  | List item =>
      match v with VList items => forallb (is_valid item) items | _ => false end
  | Tuple params =>
      let fix components (ps : list property) (vs : list pyval) : bool :=
        match ps, vs with
        | [], [] => true
        | q :: ps', x :: vs' => is_valid q x && components ps' vs'
        | _, _ => false
        end in
      match v with
      | VTuple items | VList items => components params items
      | _ => false
      end
  | Either params => existsb (fun q => is_valid q v) params
  end.

(** Modelled from the spec: the default a property type has when its
    declaration gives none ([None] where the type has no default). *)
Fixpoint intrinsic_default (p : property) : option pyval :=
  match p with
  | Bool => Some (VBool false)
  | String => Some (VStr "")
  | Null => Some VNone
  | Enum values =>
      match values with s :: _ => Some (VStr s) | [] => None end
  | Instance _ => None
  | Nullable _ => Some VNone
  | List _ => Some (VList [])
  | Tuple params =>
      let fix defaults (ps : list property) : option (list pyval) :=
        match ps with
        | [] => Some []
        | q :: ps' =>
            match intrinsic_default q, defaults ps' with
            | Some x, Some xs => Some (x :: xs)
            | _, _ => None
            end
        end in
      match defaults params with Some xs => Some (VTuple xs) | None => None end
  | Either params =>
      match params with q :: _ => intrinsic_default q | [] => None end
  end.

End properties.

(** A property as a class body declares it: its type and, when the
    declaration gives one, its default. *)
Record descriptor : Type := {
  type_of : properties.property;
  default : option pyval
}.

(** The two forms of a class-body line: [name = Type(...)] and
    [name = Override(default=...)]. *)
Inductive declaration : Type :=
| Define (name : string) (d : descriptor)
| Override (name : string) (new_default : pyval).

(** Modelled from the spec: the values of the [ButtonType] enumeration of
    [bokeh/core/enums.py] (the spec only says "enumerated style"). *)
Definition ButtonType : list string :=
  ["default"; "primary"; "success"; "warning"; "danger"; "light"].

Definition ButtonLike_body : list declaration :=
  [ Define "button_type"
      {| type_of := properties.Enum ButtonType; default := None |} ].

Definition AbstractButton_body : list declaration :=
  [ Define "label"
      {| type_of := properties.String; default := Some (VStr "Button") |};
    Define "icon"
      {| type_of := properties.Nullable (properties.Instance "AbstractIcon");
         default := None |} ].

Definition Button_body : list declaration :=
  [ Override "label" (VStr "Button") ].

Definition Toggle_body : list declaration :=
  [ Override "label" (VStr "Toggle");
    Define "active"
      {| type_of := properties.Bool; default := Some (VBool false) |} ].

Definition menu_item : properties.property :=
  properties.Either
    [ properties.Null;
      properties.String;
      properties.Tuple
        [ properties.String;
          properties.Either
            [ properties.String; properties.Instance "Callback" ] ] ].

Definition Dropdown_body : list declaration :=
  [ Override "label" (VStr "Dropdown");
    Define "split"
      {| type_of := properties.Bool; default := Some (VBool false) |};
    Define "menu"
      {| type_of := properties.List menu_item; default := None |} ].

Definition class_body (c : widget_class) : list declaration :=
  match c with
  | Button => Button_body
  | Toggle => Toggle_body
  | Dropdown => Dropdown_body
  end.

Definition declare (tbl : gmap string descriptor) (d : declaration)
    : gmap string descriptor :=
  match d with
  | Define name d => <[name := d]> tbl
  | Override name v =>
      alter (fun d => {| type_of := type_of d; default := Some v |}) name tbl
  end.

(** The properties of a class: the declarations of [ButtonLike], of
    [AbstractButton] and of the class itself, bases first, so that a
    subclass overrides.  ([Widget] declares its properties elsewhere: this
    is the table of the properties this file declares; [class_table] below
    is the table with the ones of [Widget] in it.) *)
Definition properties_of (c : widget_class) : gmap string descriptor :=
  foldl declare ∅ (ButtonLike_body ++ AbstractButton_body ++ class_body c).

Definition default_of (d : descriptor) : option pyval :=
  match default d with
  | Some v => Some v
  | None => properties.intrinsic_default (type_of d)
  end.

(** ** A widget and what surrounds it *)

(** Equality of values, as the property system compares the old and the new
    value of an attribute. *)
Fixpoint pyval_eqb (x y : pyval) {struct x} : bool :=
  let fix all_eqb (xs ys : list pyval) : bool :=
    match xs, ys with
    | [], [] => true
    | x' :: xs', y' :: ys' => pyval_eqb x' y' && all_eqb xs' ys'
    | _, _ => false
    end in
  match x, y with
  | VNone, VNone => true
  | VBool a, VBool b => bool_decide (a = b)
  | VInt a, VInt b => bool_decide (a = b)
  | VStr a, VStr b => bool_decide (a = b)
  | VTuple xs, VTuple ys => all_eqb xs ys
  | VList xs, VList ys => all_eqb xs ys
  | VInst m i, VInst n j => bool_decide (m = n) && bool_decide (i = j)
  | VFunc f, VFunc g => bool_decide (f = g)
  | VLambdaNew h, VLambdaNew k => pyval_eqb h k
  | _, _ => false
  end.

(** A deprecation notice as [deprecated] is given it. *)
Record notice : Type := {
  since : version;
  old_usage : string;
  new_usage : string
}.

(** One widget instance together with the warnings emitted so far and the
    calls made to the handlers of the application. *)
Record world : Type := {
  w_class : widget_class;
  (* property values set on the instance; the others are at their default *)
  w_values : gmap string pyval;
  (* registrations, oldest first: (event name or attribute, callback) *)
  w_event_callbacks : list (string * pyval);
  w_js_event_callbacks : list (string * pyval);
  w_change_callbacks : list (string * pyval);
  w_js_change_callbacks : list (string * pyval);
  w_warnings : list notice;
  (* handler calls, oldest first: (function, arguments) *)
  w_invoked : list (nat * list pyval)
}.

(** [c()]: a widget constructed with no arguments. *)
Definition new (c : widget_class) : world := {|
  w_class := c;
  w_values := ∅;
  w_event_callbacks := [];
  w_js_event_callbacks := [];
  w_change_callbacks := [];
  w_js_change_callbacks := [];
  w_warnings := [];
  w_invoked := []
|}.

(** The value of an attribute: the one set on the instance, else the
    default of the declaration. *)
Definition attr (s : world) (name : string) : option pyval :=
  match properties_of (w_class s) !! name with
  | None => None
  | Some d =>
      match w_values s !! name with
      | Some v => Some v
      | None => default_of d
      end
  end.

(** Calling a value.  A function of the application is opaque: the call is
    logged with its arguments.  The closure of [Toggle.on_click] takes
    [attr], [old] and [new] and calls the handler on [new] alone. *)
Fixpoint call_value (f : pyval) (args : list pyval) : M world pyval :=
  match f with
  | VFunc fid =>
      fun s =>
        (Return VNone,
         {| w_class := w_class s;
            w_values := w_values s;
            w_event_callbacks := w_event_callbacks s;
            w_js_event_callbacks := w_js_event_callbacks s;
            w_change_callbacks := w_change_callbacks s;
            w_js_change_callbacks := w_js_change_callbacks s;
            w_warnings := w_warnings s;
            w_invoked := w_invoked s ++ [(fid, args)] |})
  | VLambdaNew handler =>
      match args with
      | [_; _; new] => call_value handler [new]
      | _ => raise (TypeError "<lambda>() takes 3 positional arguments")
      end
  | _ => raise (TypeError "object is not callable")
  end.

(** Modelled from the spec: the change notification of the property system
    ([bokeh/util/callback_manager.py]): every callback registered for the
    attribute is called, in registration order, with the attribute name,
    the old and the new value. *)
Fixpoint notify (cbs : list (string * pyval)) (name : string)
    (old new : pyval) : M world pyval :=
  match cbs with
  | [] => mret VNone
  | (a, cb) :: rest =>
      (if bool_decide (a = name)
       then call_value cb [VStr name; old; new]
       else mret VNone) ;;
      notify rest name old new
  end.

Definition store (name : string) (v : pyval) : M world pyval :=
  fun s =>
    (Return VNone,
     {| w_class := w_class s;
        w_values := <[name := v]> (w_values s);
        w_event_callbacks := w_event_callbacks s;
        w_js_event_callbacks := w_js_event_callbacks s;
        w_change_callbacks := w_change_callbacks s;
        w_js_change_callbacks := w_js_change_callbacks s;
        w_warnings := w_warnings s;
        w_invoked := w_invoked s |}).

(** Modelled from the spec: attribute mutation through the property system
    ([bokeh/core/property/descriptors.py]): the value is validated against
    the declared type, stored, and a change is notified when the value
    differs from the old one. *)
Definition setattr (name : string) (v : pyval) : M world pyval :=
  fun s =>
    match properties_of (w_class s) !! name, attr s name with
    | Some d, Some old =>
        if properties.is_valid (type_of d) v then
          if pyval_eqb old v then (Return VNone, s)
          else (store name v ;;
                notify (w_change_callbacks s) name old v) s
        else (Raise (ValueError name), s)
    | _, _ => (Raise (AttributeError name), s)
    end.

(** ** The facilities of the base classes on a widget *)

Definition warn (n : notice) : M world pyval :=
  fun s =>
    (Return VNone,
     {| w_class := w_class s;
        w_values := w_values s;
        w_event_callbacks := w_event_callbacks s;
        w_js_event_callbacks := w_js_event_callbacks s;
        w_change_callbacks := w_change_callbacks s;
        w_js_change_callbacks := w_js_change_callbacks s;
        w_warnings := w_warnings s ++ [n];
        w_invoked := w_invoked s |}).

(** The four registries of a widget. *)
Inductive registry : Type :=
| event_callbacks
| js_event_callbacks
| change_callbacks
| js_change_callbacks.

Definition registered (r : registry) (s : world) : list (string * pyval) :=
  match r with
  | event_callbacks => w_event_callbacks s
  | js_event_callbacks => w_js_event_callbacks s
  | change_callbacks => w_change_callbacks s
  | js_change_callbacks => w_js_change_callbacks s
  end.

Definition register (r : registry) (key : string) (cb : pyval)
    : M world pyval :=
  fun s =>
    let add (r' : registry) :=
      match r, r' with
      | event_callbacks, event_callbacks
      | js_event_callbacks, js_event_callbacks
      | change_callbacks, change_callbacks
      | js_change_callbacks, js_change_callbacks =>
          registered r' s ++ [(key, cb)]
      | _, _ => registered r' s
      end in
    (Return VNone,
     {| w_class := w_class s;
        w_values := w_values s;
        w_event_callbacks := add event_callbacks;
        w_js_event_callbacks := add js_event_callbacks;
        w_change_callbacks := add change_callbacks;
        w_js_change_callbacks := add js_change_callbacks;
        w_warnings := w_warnings s;
        w_invoked := w_invoked s |}).

(** Modelled from the spec: the deprecation utility
    ([bokeh/util/deprecation.py]) and the generic event and change callback
    managers of the base classes ([bokeh/util/callback_manager.py],
    [bokeh/model/]).  [deprecated] emits one deprecation notice; each of the
    others registers the callback under the event name, or the attribute, it
    is given. *)
#[global] Instance base_classes : Framework world := {|
  deprecated since old new :=
    warn {| since := since; old_usage := old; new_usage := new |};
  on_event e h := register event_callbacks (event_name e) h;
  js_on_event e h := register js_event_callbacks (event_name e) h;
  on_change attr cb := register change_callbacks attr cb;
  js_on_change attr cb := register js_change_callbacks attr cb
|}.

(** ** Histories of a widget *)

(** What an application does to a widget after constructing it. *)
Inductive operation : Type :=
| Set_attr (name : string) (v : pyval)
| Click (m : click_method) (handler : pyval).

Definition perform (o : operation) : M world pyval :=
  match o with
  | Set_attr name v => setattr name v
  | Click m h => fun s => invoke (w_class s) m h s
  end.

(** A raised exception ends the operation, not the history. *)
Definition after (ops : list operation) (s : world) : world :=
  foldl (fun s o => final (perform o s)) s ops.

(** ** Vocabulary of the properties *)

(** The registrations among the calls of a method invocation: every call
    but the deprecation notice. *)
Definition registrations_of (c : widget_class) (m : click_method)
    (handler : pyval) : list call :=
  List.filter (fun k => negb (is_deprecation k)) (calls_of c m handler).

Definition notices_of (c : widget_class) (m : click_method)
    (handler : pyval) : list call :=
  List.filter is_deprecation (calls_of c m handler).

(** A statement that returns normally from every state. *)
Definition returns {St A} (m : M St A) : Prop :=
  ∀ s, ∃ a, result (m s) = Return a.

(** A statement that leaves an observation of the state as it was. *)
Definition preserves {St A T} (obs : St -> T) (m : M St A) : Prop :=
  ∀ s, obs (final (m s)) = obs s.

Section facilities.
Context {St : Type} (F : Framework St).

(** The deprecation utility does not raise (warnings are not errors), and
    [on_change] takes, for the attribute [active], the three-argument
    closure of [Toggle.on_click]. *)
Record well_behaved : Prop := {
  deprecated_returns : ∀ v old new, returns (deprecated v old new);
  on_change_closure : ∀ h, returns (on_change "active" (VLambdaNew h))
}.

(** A handler is valid for a method when the registration facilities behind
    that method take it. *)
Definition valid_handler (m : click_method) (h : pyval) : Prop :=
  match m with
  | on_click => ∀ e, returns (on_event e h)
  | js_on_click =>
      (∀ e, returns (js_on_event e h)) ∧ returns (js_on_change "active" h)
  end.

(** Every facility leaves the observation [obs] as it was. *)
Record frames {T} (obs : St -> T) : Prop := {
  frame_deprecated : ∀ v old new, preserves obs (deprecated v old new);
  frame_on_event : ∀ e h, preserves obs (on_event e h);
  frame_js_on_event : ∀ e h, preserves obs (js_on_event e h);
  frame_on_change : ∀ a cb, preserves obs (on_change a cb);
  frame_js_on_change : ∀ a cb, preserves obs (js_on_change a cb)
}.

End facilities.

(** The declarative side of a widget: its class and the value of each of
    its properties. *)
Definition declared_state (s : world) : widget_class * (string -> option pyval) :=
  (w_class s, attr s).

(** The shapes of a menu entry in the words of the data model: a separator
    or a (text, value) pair. *)
Definition separator_or_pair (entry : pyval) : Prop :=
  entry = VNone ∨ ∃ text value, entry = VTuple [text; value].

(** The value of a menu pair: the name of a value or a [Callback]. *)
Inductive menu_value : pyval -> Prop :=
| value_name (s : string) : menu_value (VStr s)
| value_callback (mro : list string) (oid : nat) :
    "Callback" ∈ mro -> menu_value (VInst mro oid).

(** The shapes of a menu entry as [Dropdown.menu] declares them: a
    separator, a text alone, or a (text, value) pair given as a tuple or as
    a two-element list. *)
Inductive menu_entry : pyval -> Prop :=
| entry_separator : menu_entry VNone
| entry_text (text : string) : menu_entry (VStr text)
| entry_pair (text : string) (value : pyval) :
    menu_value value -> menu_entry (VTuple [VStr text; value])
| entry_pair_list (text : string) (value : pyval) :
    menu_value value -> menu_entry (VList [VStr text; value]).

(** What [Toggle.on_click] registers for the function [fid] of the
    application: the closure around it, under the attribute [active]. *)
Definition on_click_entry (fid : nat) : string * pyval :=
  ("active", VLambdaNew (VFunc fid)).

(** What [Toggle.on_click] registers for the handler [h], whatever [h] is:
    the closure around it, under the attribute [active]. *)
Definition on_click_registration (h : pyval) : string * pyval :=
  ("active", VLambdaNew h).

(** A toggle on which three functions were registered through [on_click]
    after a callback for the changes of [label]. *)
Definition sample_toggle : world :=
  final (Toggle.on_click (VFunc 9)
    (final (Toggle.on_click (VFunc 7)
      (final (Toggle.on_click (VFunc 3)
        (final (on_change "label" (VInt 0) (new Toggle)))))))).

(** The widget proper: everything of the world but the log of handler
    calls. *)
Definition widget_of (s : world) :=
  (w_class s, w_values s, w_event_callbacks s, w_js_event_callbacks s,
   w_change_callbacks s, w_js_change_callbacks s, w_warnings s).

Section pyval_induction.
Variable P : pyval -> Prop.
Hypothesis HNone : P VNone.
Hypothesis HBool : ∀ b, P (VBool b).
Hypothesis HInt : ∀ n, P (VInt n).
Hypothesis HStr : ∀ s, P (VStr s).
Hypothesis HTuple : ∀ items, Forall P items -> P (VTuple items).
Hypothesis HList : ∀ items, Forall P items -> P (VList items).
Hypothesis HInst : ∀ mro oid, P (VInst mro oid).
Hypothesis HFunc : ∀ fid, P (VFunc fid).
Hypothesis HLambdaNew : ∀ h, P h -> P (VLambdaNew h).

(** Induction on a value that also reaches the items of tuples and lists. *)
Fixpoint pyval_nested_ind (v : pyval) : P v :=
  let fix items_ind (l : list pyval) : Forall P l :=
    match l with
    | [] => @List.Forall_nil _ P
    | x :: l' => @List.Forall_cons _ P x l' (pyval_nested_ind x) (items_ind l')
    end in
  match v with
  | VNone => HNone
  | VBool b => HBool b
  | VInt n => HInt n
  | VStr s => HStr s
  | VTuple items => HTuple items (items_ind items)
  | VList items => HList items (items_ind items)
  | VInst mro oid => HInst mro oid
  | VFunc fid => HFunc fid
  | VLambdaNew h => HLambdaNew h (pyval_nested_ind h)
  end.

End pyval_induction.

(** [active] is a boolean in this state of a [Toggle]. *)
Definition active_is_boolean (s : world) : Prop :=
  w_class s = Toggle ∧ ∃ b : bool, attr s "active" = Some (VBool b).

(** A menu with each kind of entry. *)
Definition sample_menu : pyval :=
  VList
    [ VStr "Open";
      VNone;
      VTuple [VStr "Save"; VStr "save"];
      VList [VStr "Run"; VInst ["CustomJS"; "Callback"] 1] ].

(** ** Methods as sequences of calls *)

Section calls.
Context {St : Type} {F : Framework St}.

(** Making one call to the facility it names. *)
Definition make_call (k : call) : M St pyval :=
  match k with
  | Call_deprecated v old new => deprecated v old new
  | Call_on_event e h => on_event e h
  | Call_js_on_event e h => js_on_event e h
  | Call_on_change a cb => on_change a cb
  | Call_js_on_change a cb => js_on_change a cb
  end.

(** Making calls one after the other, as the statements of a method body
    do: what a call returns is dropped, what it raises ends the sequence. *)
Fixpoint make_calls (ks : list call) : M St pyval :=
  match ks with
  | [] => mret VNone
  | k :: rest => make_call k ;; make_calls rest
  end.

(** Several method invocations one after the other. *)
Fixpoint invoke_all (invs : list (widget_class * click_method * pyval))
    : M St pyval :=
  match invs with
  | [] => mret VNone
  | (c, m, h) :: rest => invoke c m h ;; invoke_all rest
  end.

End calls.

(** The calls of several invocations, in order. *)
Definition calls_of_all (invs : list (widget_class * click_method * pyval))
    : list call :=
  concat (map (fun '(c, m, h) => calls_of c m h) invs).

(** An implementation of the facilities to exercise the methods with: it
    records each call, as [recording] does, raises what [refuse] gives for
    the call, and otherwise returns the number of calls made before. *)
Definition answer (refuse : call -> option exn) (k : call)
    : M (list call) pyval :=
  fun log =>
    (match refuse k with
     | Some e => Raise e
     | None => Return (VInt (Z.of_nat (length log)))
     end,
     log ++ [k]).

Definition refusing (refuse : call -> option exn) : Framework (list call) := {|
  deprecated since old new := answer refuse (Call_deprecated since old new);
  on_event e h := answer refuse (Call_on_event e h);
  js_on_event e h := answer refuse (Call_js_on_event e h);
  on_change a cb := answer refuse (Call_on_change a cb);
  js_on_change a cb := answer refuse (Call_js_on_change a cb)
|}.

(** Refusing the registration for [MenuItemClick] alone. *)
Definition no_menu_item_click (k : call) : option exn :=
  match k with
  | Call_on_event MenuItemClick _ => Some (TypeError "menu_item_click")
  | _ => None
  end.

(** The side a registration is made on: the Python callbacks of the server
    or the JavaScript callbacks of the browser. *)
Inductive side : Type := python_side | js_side.

Definition side_of (m : click_method) : side :=
  match m with
  | on_click => python_side
  | js_on_click => js_side
  end.

Definition registration_side (k : call) : option side :=
  match k with
  | Call_on_event _ _ | Call_on_change _ _ => Some python_side
  | Call_js_on_event _ _ | Call_js_on_change _ _ => Some js_side
  | Call_deprecated _ _ _ => None
  end.

(** Whether a call registers for the changes of an attribute (rather than
    for an event). *)
Definition for_change (k : call) : bool :=
  match k with
  | Call_on_change _ _ | Call_js_on_change _ _ => true
  | _ => false
  end.

(** The callback a registration carries. *)
Definition carried (k : call) : option pyval :=
  match k with
  | Call_on_event _ cb | Call_js_on_event _ cb
  | Call_on_change _ cb | Call_js_on_change _ cb => Some cb
  | Call_deprecated _ _ _ => None
  end.

(** ** Well-typed widgets *)

(** Every property this file declares for the widget has a value, valid
    for its declared type. *)
Definition well_typed (s : world) : Prop :=
  ∀ name d,
    properties_of (w_class s) !! name = Some d ->
    ∃ v, attr s name = Some v ∧ properties.is_valid (type_of d) v = true.

(** The properties every button widget inherits from [ButtonLike] and
    [AbstractButton]. *)
Definition inherited_properties : list string :=
  ["button_type"; "label"; "icon"].

(** The properties a class adds in its own body. *)
Definition own_properties (c : widget_class) : list string :=
  omap (fun d => match d with
                 | Define name _ => Some name
                 | Override _ _ => None
                 end)
       (class_body c).

(** The names that the lines of a class body define, and the names they
    mention at all. *)
Definition defined_names (body : list declaration) : list string :=
  omap (fun d => match d with
                 | Define name _ => Some name
                 | Override _ _ => None
                 end)
       body.

Definition mentioned_names (body : list declaration) : list string :=
  map (fun d => match d with Define name _ | Override name _ => name end)
      body.

(** The properties of a class when [Widget] and its bases contribute the
    declarations [Widget_body], which are made elsewhere.  In the resolution
    order of [AbstractButton(Widget, ButtonLike)], [ButtonLike] comes after
    [Widget] and its bases, so that its declarations are applied first and
    those of [Widget], of [AbstractButton] and of the class override them in
    turn. *)
Definition class_table (Widget_body : list declaration) (c : widget_class)
    : gmap string descriptor :=
  foldl declare ∅
    (ButtonLike_body ++ Widget_body ++ AbstractButton_body ++ class_body c).

(** A declaration whose default is valid for its type. *)
Definition default_is_valid (d : descriptor) : bool :=
  match default_of d with
  | Some v => properties.is_valid (type_of d) v
  | None => false
  end.

(** * Properties *)

(** ** Sequencing *)

Lemma bind_return {St A B} (m : M St A) (k : A -> M St B) s a :
  result (m s) = Return a -> (m ≫= k) s = k a (final (m s)).
Proof.
  unfold mbind, M_bind, result, final.
  destruct (m s) as [[a' | e] s']; simpl; congruence.
Qed.

Lemma bind_raise {St A B} (m : M St A) (k : A -> M St B) s e :
  result (m s) = Raise e -> (m ≫= k) s = (Raise e, final (m s)).
Proof.
  unfold mbind, M_bind, result, final.
  destruct (m s) as [[a' | e'] s']; simpl; congruence.
Qed.

Lemma final_bind {St A B T} (obs : St -> T) (m : M St A) (k : A -> M St B) s :
  (∀ a s', obs (final (k a s')) = obs s') ->
  obs (final ((m ≫= k) s)) = obs (final (m s)).
Proof.
  intros Hk. unfold mbind, M_bind, final in *.
  destruct (m s) as [[a | e] s']; simpl; [apply Hk | reflexivity].
Qed.

Lemma bind_assoc {St A B C} (m : M St A) (f : A -> M St B) (g : B -> M St C) s :
  ((m ≫= f) ≫= g) s = (m ≫= fun a => f a ≫= g) s.
Proof.
  unfold mbind, M_bind. destruct (m s) as [[a | e] s']; reflexivity.
Qed.

Lemma bind_ext {St A B} (m m' : M St A) (k k' : A -> M St B) s :
  m s = m' s -> (∀ a s', k a s' = k' a s') -> (m ≫= k) s = (m' ≫= k') s.
Proof.
  intros Hm Hk. unfold mbind, M_bind. rewrite Hm.
  destruct (m' s) as [[a | e] s']; [ apply Hk | reflexivity ].
Qed.

(** One step of a sequence whose first statement returns. *)
Ltac run_call :=
  match goal with
  | |- result ((?m ≫= ?k) ?s) = _ =>
      let a := fresh "a" in
      let Ha := fresh "Ha" in
      assert (∃ a, result (m s) = Return a) as [a Ha] by eauto;
      rewrite (bind_return m k s a Ha)
  end.

(** ** The calls of the six methods *)

Lemma calls_of_Button_on_click h :
  calls_of Button on_click h =
    [ Call_deprecated (3, 0, 0) "on_click(handler)"
        ("on_event(" +:+ quoted "button_click" +:+ ", handler)");
      Call_on_event ButtonClick h ].
Proof. reflexivity. Qed.

Lemma calls_of_Button_js_on_click h :
  calls_of Button js_on_click h =
    [ Call_deprecated (3, 0, 0) "js_on_click(handler)"
        ("js_on_event(" +:+ quoted "button_click" +:+ ", handler)");
      Call_js_on_event ButtonClick h ].
Proof. reflexivity. Qed.

Lemma calls_of_Dropdown_on_click h :
  calls_of Dropdown on_click h =
    [ Call_deprecated (3, 0, 0) "on_click(handler)"
        ("on_event(" +:+ quoted "button_click"
           +:+ ", handler) OR on_event("
           +:+ quoted "menu_item_click" +:+ ", handler)");
      Call_on_event ButtonClick h;
      Call_on_event MenuItemClick h ].
Proof. reflexivity. Qed.

Lemma calls_of_Dropdown_js_on_click h :
  calls_of Dropdown js_on_click h =
    [ Call_deprecated (3, 0, 0) "js_on_click(handler)"
        ("js_on_event(" +:+ quoted "button_click"
           +:+ ", handler) OR js_on_event("
           +:+ quoted "menu_item_click" +:+ ", handler)");
      Call_js_on_event ButtonClick h;
      Call_js_on_event MenuItemClick h ].
Proof. reflexivity. Qed.

(** C1: one call of [on_click] or [js_on_click], of any of the three
    widgets, emits exactly one deprecation notice: the method calls
    [deprecated] once, and on a widget the warnings emitted grow by one. *)
Theorem click_emits_one_deprecation_notice :
  ∀ (c : widget_class) (m : click_method) (h : pyval) (s : world),
    length (notices_of c m h) = 1
    ∧ ∃ n : notice,
        w_warnings (final (invoke c m h s)) = w_warnings s ++ [n].
Proof.
  intros c m h s. split.
  - destruct c, m; reflexivity.
  - destruct c, m; eexists; reflexivity.
Qed.

(** C2, as stated, fails: neither [Toggle.on_click] nor
    [Toggle.js_on_click] calls [on_event] or [js_on_event]; for a function
    and for a [CustomJS] callback, no such call is made and both event
    registries of a new [Toggle] stay empty. *)
Lemma Toggle_click_makes_no_on_event_call :
  ¬ In (Call_on_event ButtonClick (VFunc 0))
       (calls_of Toggle on_click (VFunc 0))
  ∧ ¬ In (Call_js_on_event ButtonClick (VInst ["CustomJS"; "Callback"] 0))
         (calls_of Toggle js_on_click (VInst ["CustomJS"; "Callback"] 0))
  ∧ w_event_callbacks (final (Toggle.on_click (VFunc 0) (new Toggle))) = []
  ∧ w_js_event_callbacks
      (final (Toggle.js_on_click (VInst ["CustomJS"; "Callback"] 0)
                (new Toggle))) = [].
Proof.
  repeat split; try reflexivity.
  - intros [H | [H | []]]; discriminate H.
  - intros [H | [H | []]]; discriminate H.
Qed.

(** C2, amended: the deprecation notice of [Toggle.on_click]
    ([Toggle.js_on_click]) names [on_event("button_click", handler)]
    ([js_on_event("button_click", handler)]) as the replacement, and the
    method registers, through [on_change], the closure that calls the
    handler on the new value (through [js_on_change], the handler itself)
    for changes of the attribute [active]; the event registries are left
    as they were. *)
Theorem Toggle_click_registers_for_active_change :
  ∀ (h : pyval) (s : world),
    calls_of Toggle on_click h =
      [ Call_deprecated (3, 0, 0) "on_click(handler)"
          ("on_event(" +:+ quoted "button_click" +:+ ", handler)");
        Call_on_change "active" (VLambdaNew h) ]
    ∧ calls_of Toggle js_on_click h =
      [ Call_deprecated (3, 0, 0) "js_on_click(handler)"
          ("js_on_event(" +:+ quoted "button_click" +:+ ", handler)");
        Call_js_on_change "active" h ]
    ∧ w_change_callbacks (final (Toggle.on_click h s))
      = w_change_callbacks s ++ [("active", VLambdaNew h)]
    ∧ w_js_change_callbacks (final (Toggle.js_on_click h s))
      = w_js_change_callbacks s ++ [("active", h)]
    ∧ w_event_callbacks (final (Toggle.on_click h s)) = w_event_callbacks s
    ∧ w_js_event_callbacks (final (Toggle.js_on_click h s))
      = w_js_event_callbacks s.
Proof. intros h s. repeat split. Qed.

(** C3: [Button.on_click] registers the handler for the [ButtonClick]
    event, named [button_click], through [on_event], and
    [Button.js_on_click] registers it for the same event through
    [js_on_event]; these are the only registrations the two methods make,
    and on a widget the handler joins the callbacks of that event. *)
Theorem Button_click_registers_for_ButtonClick :
  ∀ (h : pyval) (s : world),
    event_name ButtonClick = "button_click"
    ∧ registrations_of Button on_click h = [Call_on_event ButtonClick h]
    ∧ registrations_of Button js_on_click h = [Call_js_on_event ButtonClick h]
    ∧ w_event_callbacks (final (Button.on_click h s))
      = w_event_callbacks s ++ [("button_click", h)]
    ∧ w_js_event_callbacks (final (Button.js_on_click h s))
      = w_js_event_callbacks s ++ [("button_click", h)].
Proof.
  intros h s.
  unfold registrations_of.
  rewrite calls_of_Button_on_click, calls_of_Button_js_on_click.
  repeat split.
Qed.

(** C4: one call of [Dropdown.on_click] registers the handler through
    [on_event] first for [ButtonClick] ([button_click]) and then for
    [MenuItemClick] ([menu_item_click]); [Dropdown.js_on_click] does the
    same through [js_on_event]. *)
Theorem Dropdown_click_registers_for_both_events :
  ∀ (h : pyval) (s : world),
    event_name ButtonClick = "button_click"
    ∧ event_name MenuItemClick = "menu_item_click"
    ∧ registrations_of Dropdown on_click h
      = [Call_on_event ButtonClick h; Call_on_event MenuItemClick h]
    ∧ registrations_of Dropdown js_on_click h
      = [Call_js_on_event ButtonClick h; Call_js_on_event MenuItemClick h]
    ∧ w_event_callbacks (final (Dropdown.on_click h s))
      = w_event_callbacks s
          ++ [("button_click", h); ("menu_item_click", h)]
    ∧ w_js_event_callbacks (final (Dropdown.js_on_click h s))
      = w_js_event_callbacks s
          ++ [("button_click", h); ("menu_item_click", h)].
Proof.
  intros h s.
  unfold registrations_of.
  rewrite calls_of_Dropdown_on_click, calls_of_Dropdown_js_on_click.
  repeat split; simpl; rewrite <- app_assoc; reflexivity.
Qed.

(** ** Normal return *)


(** No method of this file catches an exception: what [deprecated] raises
    is what the method raises, from the state [deprecated] left. *)
Lemma click_raises_what_deprecated_raises {St} (F : Framework St)
    (c : widget_class) (m : click_method) (h : pyval) (s : St) (e : exn) :
  (∀ v old new, result (deprecated v old new s) = Raise e) ->
  result (invoke c m h s) = Raise e.
Proof.
  intros Hd.
  destruct c, m; unfold invoke;
    [ unfold Button.on_click | unfold Button.js_on_click
    | unfold Toggle.on_click | unfold Toggle.js_on_click
    | unfold Dropdown.on_click | unfold Dropdown.js_on_click ];
    erewrite bind_raise by apply Hd; reflexivity.
Qed.

(** C6: with facilities that are well behaved and a handler that is valid
    for the method, [on_click] and [js_on_click] of each of the three
    widgets raise nothing and return [None]. *)
Theorem click_returns_None {St} (F : Framework St) :
  well_behaved F ->
  ∀ (c : widget_class) (m : click_method) (h : pyval),
    valid_handler F m h ->
    ∀ s : St, result (invoke c m h s) = Return VNone.
Proof.
  intros [Hd Hc] c m h Hv s.
  destruct c, m; simpl in Hv; try destruct Hv as [Hje Hjc];
    unfold returns in *; unfold invoke;
    [ unfold Button.on_click | unfold Button.js_on_click
    | unfold Toggle.on_click | unfold Toggle.js_on_click
    | unfold Dropdown.on_click | unfold Dropdown.js_on_click ];
    repeat run_call; reflexivity.
Qed.

(** ** Frame *)

Lemma preserves_bind {St A B T} (obs : St -> T) (m : M St A) (k : A -> M St B) :
  preserves obs m -> (∀ a, preserves obs (k a)) -> preserves obs (m ≫= k).
Proof.
  intros Hm Hk s.
  rewrite (final_bind obs m k s) by (intros a s'; apply Hk).
  apply Hm.
Qed.

Lemma preserves_mret {St A T} (obs : St -> T) (a : A) :
  preserves obs (mret a : M St A).
Proof. intros s. reflexivity. Qed.

(** What every facility leaves as it was, every click method leaves as it
    was. *)
Lemma invoke_preserves {St T} (F : Framework St) (obs : St -> T) :
  frames F obs -> ∀ c m h, preserves obs (invoke c m h).
Proof.
  intros [Hd He Hje Hc Hjc] c m h.
  destruct c, m; unfold invoke;
    [ unfold Button.on_click | unfold Button.js_on_click
    | unfold Toggle.on_click | unfold Toggle.js_on_click
    | unfold Dropdown.on_click | unfold Dropdown.js_on_click ];
    repeat (apply preserves_bind; [ auto | intros _ ]);
    apply preserves_mret.
Qed.

Lemma base_classes_frame_declared_state : frames base_classes declared_state.
Proof. split; intros; intros s; reflexivity. Qed.

(** C8: whatever implements the facilities of the base classes, as long as
    those leave the class and the properties of the widget alone,
    [on_click] and [js_on_click] of each of the three widgets leave the
    value of every property ([label], [icon], [button_type], [active],
    [split], [menu]) as it was. *)
Theorem click_leaves_properties (F : Framework world) :
  frames F declared_state ->
  ∀ (c : widget_class) (m : click_method) (h : pyval) (s : world)
    (name : string),
    w_class (final (invoke c m h s)) = w_class s
    ∧ attr (final (invoke c m h s)) name = attr s name.
Proof.
  intros HF c m h s name.
  pose proof (invoke_preserves F declared_state HF c m h s) as H.
  unfold declared_state in H.
  injection H as Hclass Hattr.
  split; [ exact Hclass | ].
  rewrite Hattr. reflexivity.
Qed.

(** ** Declarations and defaults *)

Lemma Toggle_active_declared :
  properties_of Toggle !! "active"
  = Some {| type_of := properties.Bool; default := Some (VBool false) |}.
Proof. vm_compute. reflexivity. Qed.

Lemma Dropdown_menu_declared :
  properties_of Dropdown !! "menu"
  = Some {| type_of := properties.List menu_item; default := None |}.
Proof. vm_compute. reflexivity. Qed.

(** C9: constructed with no arguments, a [Button] has the label "Button",
    a [Toggle] the label "Toggle" and [active] false, a [Dropdown] the
    label "Dropdown", [split] false and an empty menu; the icon of all
    three is [None], which its declared type admits. *)
Theorem defaults_of_new_widgets :
  attr (new Button) "label" = Some (VStr "Button")
  ∧ attr (new Toggle) "label" = Some (VStr "Toggle")
  ∧ attr (new Toggle) "active" = Some (VBool false)
  ∧ attr (new Dropdown) "label" = Some (VStr "Dropdown")
  ∧ attr (new Dropdown) "split" = Some (VBool false)
  ∧ attr (new Dropdown) "menu" = Some (VList [])
  ∧ (∀ c : widget_class,
       attr (new c) "icon" = Some VNone
       ∧ properties_of c !! "icon"
         = Some {| type_of :=
                     properties.Nullable (properties.Instance "AbstractIcon");
                   default := None |}
       ∧ properties.is_valid
           (properties.Nullable (properties.Instance "AbstractIcon")) VNone
         = true).
Proof.
  repeat split; try (vm_compute; reflexivity);
    destruct c; vm_compute; reflexivity.
Qed.

(** ** Calling handlers *)

Lemma call_value_widget (f : pyval) :
  ∀ args s, widget_of (final (call_value f args s)) = widget_of s.
Proof.
  induction f; intros args st; try reflexivity.
  simpl. destruct args as [| a [| o [| n [| ? ?]]]]; try reflexivity.
  apply IHf.
Qed.

Lemma notify_widget cbs name old new :
  ∀ s, widget_of (final (notify cbs name old new s)) = widget_of s.
Proof.
  induction cbs as [| [a cb] rest IH]; intros s; [ reflexivity | ].
  simpl.
  rewrite (final_bind widget_of) by (intros _ s'; apply IH).
  case_bool_decide; [ apply call_value_widget | reflexivity ].
Qed.


(** ** Equality of values *)


Lemma pyval_eqb_eq (x : pyval) : ∀ y, pyval_eqb x y = true -> x = y.
Proof.
  induction x as [ | | | | xs IH | xs IH | | | h IH ] using pyval_nested_ind;
    intros [ | | | | ys | ys | | | k ]; simpl; try discriminate;
    try (intros H; apply bool_decide_eq_true_1 in H; congruence).
  - reflexivity.
  - intros H. f_equal. revert ys H.
    induction IH as [| x xs Hx _ IHxs]; intros [| y ys]; try discriminate;
      [ reflexivity | ].
    intros H. apply andb_prop in H as [H1 H2].
    f_equal; [ apply Hx, H1 | apply IHxs, H2 ].
  - intros H. f_equal. revert ys H.
    induction IH as [| x xs Hx _ IHxs]; intros [| y ys]; try discriminate;
      [ reflexivity | ].
    intros H. apply andb_prop in H as [H1 H2].
    f_equal; [ apply Hx, H1 | apply IHxs, H2 ].
  - intros H. apply andb_prop in H as [H1 H2].
    apply bool_decide_eq_true_1 in H1, H2. congruence.
  - intros H. f_equal. apply IH, H.
Qed.

(** ** Attribute mutation *)

Lemma attr_of_widget (s1 s2 : world) :
  widget_of s1 = widget_of s2 -> attr s1 = attr s2.
Proof.
  unfold widget_of, attr. intros H.
  injection H as Hc Hv _ _ _ _ _. rewrite Hc, Hv. reflexivity.
Qed.

Lemma store_then_notify_widget name v cbs old s :
  widget_of (final ((store name v ;; notify cbs name old v) s))
  = widget_of (final (store name v s)).
Proof.
  apply (final_bind widget_of). intros _ s'. apply notify_widget.
Qed.

(** A mutation that returns was given a value valid for the declared type,
    and the attribute then has that value. *)
Lemma setattr_returns (name : string) (v : pyval) (s : world) :
  result (setattr name v s) = Return VNone ->
  (∃ d, properties_of (w_class s) !! name = Some d
        ∧ properties.is_valid (type_of d) v = true)
  ∧ attr (final (setattr name v s)) name = Some v.
Proof.
  unfold setattr.
  destruct (properties_of (w_class s) !! name) as [d |] eqn:Hd;
    [ | discriminate ].
  destruct (attr s name) as [old |] eqn:Hold; [ | discriminate ].
  destruct (properties.is_valid (type_of d) v) eqn:Hvalid; [ | discriminate ].
  destruct (pyval_eqb old v) eqn:Heq; intros _; (split; [ eauto | ]).
  - apply pyval_eqb_eq in Heq. subst old. exact Hold.
  - rewrite (attr_of_widget _ _ (store_then_notify_widget _ _ _ _ _)).
    unfold attr, store, final; simpl.
    rewrite Hd, lookup_insert_eq. reflexivity.
Qed.

(** A mutation of one attribute leaves the value of every other one. *)
Lemma setattr_other (name other : string) (v : pyval) (s : world) :
  name ≠ other ->
  attr (final (setattr name v s)) other = attr s other.
Proof.
  intros Hne. unfold setattr.
  destruct (properties_of (w_class s) !! name) as [d |];
    [ | reflexivity ].
  destruct (attr s name) as [old |]; [ | reflexivity ].
  destruct (properties.is_valid (type_of d) v); [ | reflexivity ].
  destruct (pyval_eqb old v); [ reflexivity | ].
  rewrite (attr_of_widget _ _ (store_then_notify_widget _ _ _ _ _)).
  unfold attr, store, final; simpl.
  rewrite lookup_insert_ne by exact Hne. reflexivity.
Qed.

Lemma setattr_class (name : string) (v : pyval) (s : world) :
  w_class (final (setattr name v s)) = w_class s.
Proof.
  unfold setattr.
  destruct (properties_of (w_class s) !! name) as [d |];
    [ | reflexivity ].
  destruct (attr s name) as [old |]; [ | reflexivity ].
  destruct (properties.is_valid (type_of d) v); [ | reflexivity ].
  destruct (pyval_eqb old v); [ reflexivity | ].
  pose proof (store_then_notify_widget name v (w_change_callbacks s) old s) as H.
  unfold widget_of in H. injection H as Hc _ _ _ _ _ _. exact Hc.
Qed.

Lemma setattr_changes name v s d old :
  properties_of (w_class s) !! name = Some d ->
  attr s name = Some old ->
  properties.is_valid (type_of d) v = true ->
  pyval_eqb old v = false ->
  setattr name v s
  = (store name v ;; notify (w_change_callbacks s) name old v) s.
Proof.
  intros Hd Hold Hvalid Hne. unfold setattr.
  rewrite Hd, Hold, Hvalid, Hne. reflexivity.
Qed.

(** Whatever its outcome, a mutation either leaves the attribute as it was
    or gives it a value valid for the declared type. *)
Lemma setattr_effect (name : string) (v : pyval) (s : world) :
  attr (final (setattr name v s)) name = attr s name
  ∨ ∃ d, properties_of (w_class s) !! name = Some d
         ∧ properties.is_valid (type_of d) v = true
         ∧ attr (final (setattr name v s)) name = Some v.
Proof.
  unfold setattr.
  destruct (properties_of (w_class s) !! name) as [d |] eqn:Hd;
    [ | left; reflexivity ].
  destruct (attr s name) as [old |] eqn:Hold; [ | left; exact Hold ].
  destruct (properties.is_valid (type_of d) v) eqn:Hvalid;
    [ | left; exact Hold ].
  destruct (pyval_eqb old v) eqn:Heq; [ left; exact Hold | ].
  right. exists d. repeat split; try assumption.
  rewrite (attr_of_widget _ _ (store_then_notify_widget _ _ _ _ _)).
  unfold attr, store, final; simpl.
  rewrite Hd, lookup_insert_eq. reflexivity.
Qed.

(** ** The menu of a dropdown *)

Lemma menu_value_shape (value : pyval) :
  properties.is_valid
    (properties.Either [properties.String; properties.Instance "Callback"])
    value = true ->
  menu_value value.
Proof.
  destruct value; simpl; try discriminate.
  - intros _. constructor.
  - rewrite orb_false_r. intros H.
    constructor. apply bool_decide_eq_true_1 in H. exact H.
Qed.

Lemma menu_pair_shape (items : list pyval) :
  properties.is_valid menu_item (VTuple items) = true ->
  ∃ text value, items = [VStr text; value] ∧ menu_value value.
Proof.
  destruct items as [| t [| value rest]]; simpl; try discriminate;
    destruct t as [ | | | text | | | | | ]; simpl; try discriminate.
  destruct rest as [| extra rest].
  - rewrite !orb_false_r, andb_true_r. intros H.
    exists text, value. split; [ reflexivity | ].
    apply menu_value_shape. simpl. rewrite orb_false_r. exact H.
  - rewrite andb_false_r. discriminate.
Qed.

Lemma menu_item_shape (entry : pyval) :
  properties.is_valid menu_item entry = true -> menu_entry entry.
Proof.
  destruct entry as [ | | | text | items | items | | | ];
    try discriminate; try (intros _; constructor).
  - intros H. apply menu_pair_shape in H as (text & value & -> & Hv).
    constructor. exact Hv.
  - intros H. apply (menu_pair_shape items) in H as (text & value & -> & Hv).
    constructor. exact Hv.
Qed.

Lemma menu_shape (v : pyval) :
  properties.is_valid (properties.List menu_item) v = true ->
  ∃ entries, v = VList entries ∧ Forall menu_entry entries.
Proof.
  destruct v as [ | | | | | entries | | | ]; try discriminate.
  intros H. exists entries. split; [ reflexivity | ].
  change (forallb (properties.is_valid menu_item) entries = true) in H.
  induction entries as [| e entries IH]; [ constructor | ].
  simpl in H. apply andb_prop in H as [He Hrest].
  constructor; [ apply menu_item_shape, He | apply IH, Hrest ].
Qed.

(** C5, as stated, fails: the menu of a new [Dropdown] takes the list
    whose one entry is the text "item", which is neither a separator nor a
    pair. *)
Lemma Dropdown_menu_takes_text_entry :
  result (setattr "menu" (VList [VStr "item"]) (new Dropdown)) = Return VNone
  ∧ attr (final (setattr "menu" (VList [VStr "item"]) (new Dropdown))) "menu"
    = Some (VList [VStr "item"])
  ∧ ¬ separator_or_pair (VStr "item").
Proof.
  split; [ vm_compute; reflexivity | ].
  split; [ vm_compute; reflexivity | ].
  intros [H | (text & value & H)]; discriminate H.
Qed.

(** C5, amended: a value accepted into the [menu] property of a
    [Dropdown] is a list, kept in its order, and each of its entries is a
    separator ([None]), a text alone, or a (text, value) pair, a tuple or a
    two-element list, whose text is a string and whose value is a string or
    a [Callback]. *)
Theorem Dropdown_menu_entries :
  ∀ (s : world) (v : pyval),
    w_class s = Dropdown ->
    result (setattr "menu" v s) = Return VNone ->
    ∃ entries : list pyval,
      v = VList entries
      ∧ Forall menu_entry entries
      ∧ attr (final (setattr "menu" v s)) "menu" = Some (VList entries).
Proof.
  intros s v Hclass Hret.
  apply setattr_returns in Hret as [(d & Hd & Hvalid) Hattr].
  rewrite Hclass, Dropdown_menu_declared in Hd.
  injection Hd as <-. simpl in Hvalid.
  destruct (menu_shape v Hvalid) as (entries & -> & Hentries).
  exists entries. auto.
Qed.

(** ** The state of a toggle *)


Lemma Bool_valid (v : pyval) :
  properties.is_valid properties.Bool v = true -> ∃ b : bool, v = VBool b.
Proof. destruct v; try discriminate. eauto. Qed.

Lemma perform_keeps_active_boolean (o : operation) (s : world) :
  active_is_boolean s -> active_is_boolean (final (perform o s)).
Proof.
  intros [Hclass [b Hb]].
  destruct o as [name v | m h]; simpl.
  - split; [ rewrite setattr_class; exact Hclass | ].
    destruct (decide (name = "active")) as [-> | Hne].
    + destruct (setattr_effect "active" v s) as [Hsame | (d & Hd & Hvalid & Hnew)].
      * exists b. rewrite Hsame. exact Hb.
      * rewrite Hclass, Toggle_active_declared in Hd. injection Hd as <-.
        apply Bool_valid in Hvalid as [b' ->]. exists b'. exact Hnew.
    + exists b. rewrite setattr_other by exact Hne. exact Hb.
  - pose proof (invoke_preserves base_classes declared_state
                  base_classes_frame_declared_state (w_class s) m h s) as H.
    unfold declared_state in H. injection H as Hc Ha.
    split; [ congruence | ]. exists b. rewrite Ha. exact Hb.
Qed.

Lemma after_keeps_active_boolean (ops : list operation) :
  ∀ s, active_is_boolean s -> active_is_boolean (after ops s).
Proof.
  induction ops as [| o ops IH]; intros s Hs; [ exact Hs | ].
  simpl. apply IH, perform_keeps_active_boolean, Hs.
Qed.

(** C7: the [active] field of a [Toggle] is a boolean: it is [False] on
    construction, the mutation of [active] returns only for a boolean, and
    after every history of mutations and of [on_click] / [js_on_click]
    calls, [active] is a boolean. *)
Theorem Toggle_active_is_boolean :
  attr (new Toggle) "active" = Some (VBool false)
  ∧ (∀ (s : world) (v : pyval),
       w_class s = Toggle ->
       result (setattr "active" v s) = Return VNone ->
       ∃ b : bool, v = VBool b)
  ∧ (∀ ops : list operation,
       ∃ b : bool, attr (after ops (new Toggle)) "active" = Some (VBool b)).
Proof.
  split; [ vm_compute; reflexivity | split ].
  - intros s v Hclass Hret.
    apply setattr_returns in Hret as [(d & Hd & Hvalid) _].
    rewrite Hclass, Toggle_active_declared in Hd. injection Hd as <-.
    apply Bool_valid, Hvalid.
  - intros ops.
    apply (after_keeps_active_boolean ops (new Toggle)).
    split; [ reflexivity | ]. exists false. vm_compute. reflexivity.
Qed.

(** ** Handlers of a toggle *)

Lemma notify_app (xs ys : list (string * pyval)) (name : string)
    (old new : pyval) :
  ∀ s, notify (xs ++ ys) name old new s
       = (notify xs name old new ;; notify ys name old new) s.
Proof.
  induction xs as [| [a cb] xs IH]; intros s; [ reflexivity | ].
  cbn [app notify]. rewrite bind_assoc.
  apply bind_ext; [ reflexivity | intros _ s'; apply IH ].
Qed.

(** C10: a handler registered through [Toggle.on_click] is called, when
    [active] changes, with one argument, the new value of [active].  For any
    toggle, whatever else is registered on it, and any handler [h]:
    [on_click] registers the closure around [h] for [active]; the closure
    drops the attribute name and the old value; and when [active] changes
    and the callbacks registered before it have returned, the mutation goes
    on by calling [h] on the new value alone, and then with the callbacks
    registered later. *)
Theorem Toggle_handler_gets_new_value
    (t : world) (h : pyval) (before later : list (string * pyval))
    (new : bool) :
  w_class t = Toggle ->
  w_change_callbacks t = before ++ on_click_registration h :: later ->
  attr t "active" = Some (VBool (negb new)) ->
  result (notify before "active" (VBool (negb new)) (VBool new)
            (final (store "active" (VBool new) t))) = Return VNone ->
  setattr "active" (VBool new) t
  = (call_value h [VBool new] ;;
     notify later "active" (VBool (negb new)) (VBool new))
      (final (notify before "active" (VBool (negb new)) (VBool new)
                (final (store "active" (VBool new) t))))
  ∧ (∀ s : world,
       w_change_callbacks (final (Toggle.on_click h s))
       = w_change_callbacks s ++ [on_click_registration h])
  ∧ (∀ (name old value : pyval) (st : world),
       call_value (VLambdaNew h) [name; old; value] st
       = call_value h [value] st).
Proof.
  intros Hclass Hcbs Hactive Hbefore.
  split; [ | split; intros; reflexivity ].
  rewrite (setattr_changes "active" (VBool new) t
             {| type_of := properties.Bool; default := Some (VBool false) |}
             (VBool (negb new)));
    [ | rewrite Hclass; apply Toggle_active_declared
      | exact Hactive
      | reflexivity
      | destruct new; reflexivity ].
  rewrite Hcbs.
  erewrite bind_return by reflexivity.
  rewrite notify_app.
  rewrite (bind_return _ _ _ _ Hbefore).
  cbn [notify on_click_registration].
  rewrite bool_decide_eq_true_2 by reflexivity.
  reflexivity.
Qed.

(** ** The properties at work on the widgets of the base classes *)

Lemma base_classes_well_behaved : well_behaved base_classes.
Proof. split; intros; intros s; eexists; reflexivity. Qed.

Lemma base_classes_take_any_handler (m : click_method) (h : pyval) :
  valid_handler base_classes m h.
Proof.
  destruct m; simpl; [ | split ]; intros; intros s; eexists; reflexivity.
Qed.

(** The menu property of a new [Dropdown] takes [sample_menu], and every
    entry of it has one of the declared shapes. *)
Lemma Dropdown_menu_entries_sample :
  w_class (new Dropdown) = Dropdown
  ∧ result (setattr "menu" sample_menu (new Dropdown)) = Return VNone
  ∧ ∃ entries : list pyval,
      sample_menu = VList entries
      ∧ Forall menu_entry entries
      ∧ attr (final (setattr "menu" sample_menu (new Dropdown))) "menu"
        = Some (VList entries).
Proof.
  split; [ reflexivity | ].
  split; [ vm_compute; reflexivity | ].
  apply (Dropdown_menu_entries (new Dropdown) sample_menu).
  - reflexivity.
  - vm_compute; reflexivity.
Defined.

(** On the widgets of the base classes, [Dropdown.on_click] of a function
    returns [None]. *)
Lemma click_returns_None_on_Dropdown :
  well_behaved base_classes
  ∧ valid_handler base_classes on_click (VFunc 0)
  ∧ result (invoke Dropdown on_click (VFunc 0) (new Dropdown)) = Return VNone.
Proof.
  split; [ exact base_classes_well_behaved | ].
  split; [ exact (base_classes_take_any_handler on_click (VFunc 0)) | ].
  apply (click_returns_None base_classes base_classes_well_behaved
           Dropdown on_click (VFunc 0)
           (base_classes_take_any_handler on_click (VFunc 0))).
Defined.

(** On the widgets of the base classes, [Toggle.js_on_click] leaves the
    class and [active] of a new [Toggle] as they were. *)
Lemma click_leaves_properties_of_Toggle :
  frames base_classes declared_state
  ∧ w_class (final (invoke Toggle js_on_click
                      (VInst ["CustomJS"; "Callback"] 0) (new Toggle)))
    = w_class (new Toggle)
  ∧ attr (final (invoke Toggle js_on_click
                   (VInst ["CustomJS"; "Callback"] 0) (new Toggle))) "active"
    = attr (new Toggle) "active".
Proof.
  split; [ exact base_classes_frame_declared_state | ].
  apply (click_leaves_properties base_classes
           base_classes_frame_declared_state Toggle js_on_click
           (VInst ["CustomJS"; "Callback"] 0) (new Toggle) "active").
Defined.

(** On [sample_toggle], the function registered second is called with
    [True] alone when [active] becomes [True], after the one registered
    first and before the one registered last; the callback for [label] is
    not called. *)
Lemma Toggle_handler_gets_True :
  w_class sample_toggle = Toggle
  ∧ w_change_callbacks sample_toggle
    = [("label", VInt 0); on_click_registration (VFunc 3)]
        ++ on_click_registration (VFunc 7) :: [on_click_registration (VFunc 9)]
  ∧ attr sample_toggle "active" = Some (VBool (negb true))
  ∧ result (notify [("label", VInt 0); on_click_registration (VFunc 3)]
              "active" (VBool (negb true)) (VBool true)
              (final (store "active" (VBool true) sample_toggle)))
    = Return VNone
  ∧ w_invoked (final (setattr "active" (VBool true) sample_toggle))
    = [(3, [VBool true]); (7, [VBool true]); (9, [VBool true])].
Proof.
  assert (Hactive : attr sample_toggle "active" = Some (VBool (negb true)))
    by (vm_compute; reflexivity).
  split; [ reflexivity | ].
  split; [ reflexivity | ].
  split; [ exact Hactive | ].
  split; [ reflexivity | ].
  rewrite (proj1 (Toggle_handler_gets_new_value sample_toggle (VFunc 7)
                    [("label", VInt 0); on_click_registration (VFunc 3)]
                    [on_click_registration (VFunc 9)] true
                    eq_refl eq_refl Hactive eq_refl)).
  reflexivity.
Defined.

(** * Further properties *)

(** ** Methods as sequences of calls *)

(** For any implementation of the facilities, a method does what its calls
    do, made in order. *)
Lemma invoke_make_calls {St} (F : Framework St) c m h s :
  invoke c m h s = make_calls (calls_of c m h) s.
Proof. destruct c, m; reflexivity. Qed.

Lemma make_calls_app {St} (F : Framework St) (xs ys : list call) :
  ∀ s, make_calls (xs ++ ys) s = (make_calls xs ;; make_calls ys) s.
Proof.
  induction xs as [| k xs IH]; intros s; [ reflexivity | ].
  simpl. rewrite bind_assoc.
  apply bind_ext; [ reflexivity | intros _ s'; apply IH ].
Qed.

Lemma make_calls_result {St} (F : Framework St) (ks : list call) :
  ∀ s, result (make_calls ks s) = Return VNone
       ∨ ∃ e, result (make_calls ks s) = Raise e.
Proof.
  induction ks as [| k ks IH]; intros s; [ left; reflexivity | ].
  simpl. unfold mbind, M_bind.
  destruct (make_call k s) as [[a | e] s']; [ apply IH | right; eauto ].
Qed.

Lemma one_notice_per_call c m h :
  length (List.filter is_deprecation (calls_of c m h)) = 1.
Proof. destruct c, m; reflexivity. Qed.

(** X1: whatever implements the facilities, when the calls of a method up
    to some call return and that call raises, the method raises the same
    exception from the state that call left: the calls after it are not
    made and the effects of the calls before it stay. *)
Theorem click_stops_at_first_exception {St} (F : Framework St)
    (c : widget_class) (m : click_method) (h : pyval) (s : St)
    (done rest : list call) (k : call) (e : exn) :
  calls_of c m h = done ++ k :: rest ->
  result (make_calls done s) = Return VNone ->
  result (make_call k (final (make_calls done s))) = Raise e ->
  invoke c m h s = (Raise e, final (make_call k (final (make_calls done s)))).
Proof.
  intros Hcalls Hdone Hk.
  rewrite invoke_make_calls, Hcalls, make_calls_app.
  rewrite (bind_return _ _ _ _ Hdone).
  simpl. apply bind_raise, Hk.
Qed.

(** X2: whatever implements the facilities and whatever they return, a
    click method returns [None] or raises. *)
Theorem click_returns_None_or_raises {St} (F : Framework St) :
  ∀ (c : widget_class) (m : click_method) (h : pyval) (s : St),
    result (invoke c m h s) = Return VNone
    ∨ ∃ e : exn, result (invoke c m h s) = Raise e.
Proof.
  intros c m h s. rewrite invoke_make_calls. apply make_calls_result.
Qed.

(** X3: whatever implements the facilities, invocations made one after the
    other do what all their calls do, made in order, and among those calls
    there is one deprecation notice for each invocation: the notice is
    given again at every call of a deprecated method. *)
Theorem invocations_add_up {St} (F : Framework St) :
  ∀ (invs : list (widget_class * click_method * pyval)) (s : St),
    invoke_all invs s = make_calls (calls_of_all invs) s
    ∧ length (List.filter is_deprecation (calls_of_all invs)) = length invs.
Proof.
  induction invs as [| [[c m] h] invs IH]; intros s; [ split; reflexivity | ].
  unfold calls_of_all in *. cbn [map concat invoke_all]. split.
  - rewrite make_calls_app.
    apply bind_ext; [ apply invoke_make_calls | intros _ s'; apply IH ].
  - rewrite List.filter_app, length_app, one_notice_per_call.
    simpl. f_equal. apply (IH s).
Qed.

(** X4: every registration a click method makes is on the side of the
    method ([on_click] registers Python callbacks, [js_on_click] JavaScript
    ones), is for a change of an attribute exactly when the widget is a
    [Toggle] and for an event otherwise, and carries the handler itself,
    but for [Toggle.on_click], which carries the closure around it. *)
Theorem registrations_keep_to_their_kind
    (c : widget_class) (m : click_method) (h : pyval) (k : call) :
  In k (registrations_of c m h) ->
  registration_side k = Some (side_of m)
  ∧ (for_change k = true ↔ c = Toggle)
  ∧ carried k
    = Some (match c, m with Toggle, on_click => VLambdaNew h | _, _ => h end).
Proof.
  intros Hk.
  destruct c, m; simpl in Hk;
    repeat (destruct Hk as [<- | Hk]); try contradiction;
    (split; [ reflexivity | split; [ | reflexivity ] ]);
    simpl; split; intros H; try discriminate H; reflexivity.
Qed.

(** ** The closure of [Toggle.on_click] *)

(** X5: the closure that [Toggle.on_click] registers takes exactly three
    arguments: called with any other number of them it raises [TypeError],
    the handler is not called and nothing changes. *)
Theorem closure_takes_three_arguments
    (h : pyval) (args : list pyval) (s : world) :
  length args ≠ 3 ->
  ∃ msg, call_value (VLambdaNew h) args s = (Raise (TypeError msg), s).
Proof.
  intros Hlen.
  destruct args as [| a [| o [| n [| extra args]]]];
    simpl in *; try (eexists; reflexivity).
  contradiction Hlen. reflexivity.
Qed.

Lemma notify_other_attribute (fids : list nat) (name : string)
    (old new : pyval) :
  name ≠ "active" ->
  ∀ s, notify (map on_click_entry fids) name old new s = (Return VNone, s).
Proof.
  intros Hne. induction fids as [| f fids IH]; intros s; [ reflexivity | ].
  cbn [map notify on_click_entry].
  rewrite bool_decide_eq_false_2 by congruence.
  erewrite bind_return by reflexivity. apply IH.
Qed.

(** X6: the handlers registered through [Toggle.on_click] are registered
    for [active] alone: the mutation of any other attribute calls none of
    them. *)
Theorem Toggle_handlers_ignore_other_attributes
    (s : world) (fids : list nat) (name : string) (v : pyval) :
  w_change_callbacks s = map on_click_entry fids ->
  name ≠ "active" ->
  w_invoked (final (setattr name v s)) = w_invoked s.
Proof.
  intros Hcbs Hne. unfold setattr.
  destruct (properties_of (w_class s) !! name) as [d |]; [ | reflexivity ].
  destruct (attr s name) as [old |]; [ | reflexivity ].
  destruct (properties.is_valid (type_of d) v); [ | reflexivity ].
  destruct (pyval_eqb old v); [ reflexivity | ].
  rewrite Hcbs.
  erewrite bind_return by reflexivity.
  rewrite notify_other_attribute by exact Hne. reflexivity.
Qed.

(** ** The declared properties *)

(** From a lookup in the declarations of a given class to the cases of the
    declarations of that class. *)
Ltac list_properties H :=
  match type of H with
  | properties_of ?c !! _ = Some _ =>
      let l := eval vm_compute in (map_to_list (properties_of c)) in
      let Hl := fresh "Hl" in
      assert (map_to_list (properties_of c) = l) as Hl
        by (vm_compute; reflexivity);
      apply elem_of_map_to_list in H; rewrite Hl in H; clear Hl;
      repeat (apply elem_of_cons in H as [H | H]);
      [ injection H as -> -> .. | apply elem_of_nil in H; contradiction ]
  end.

(** The declarations a class ends up with, one by one. *)
Lemma properties_of_cases (c : widget_class) (name : string) (d : descriptor) :
  properties_of c !! name = Some d ->
  (name = "button_type" ∧ type_of d = properties.Enum ButtonType)
  ∨ (name = "label" ∧ type_of d = properties.String)
  ∨ (name = "icon"
     ∧ type_of d = properties.Nullable (properties.Instance "AbstractIcon"))
  ∨ (c = Toggle ∧ name = "active" ∧ type_of d = properties.Bool)
  ∨ (c = Dropdown ∧ name = "split" ∧ type_of d = properties.Bool)
  ∨ (c = Dropdown ∧ name = "menu"
     ∧ type_of d = properties.List menu_item).
Proof.
  intros H.
  destruct c; list_properties H; simpl; auto 10.
Qed.

(** The properties this file declares are declared for the class. *)
Lemma declared_here (c : widget_class) (name : string) :
  name ∈ inherited_properties ++ own_properties c ->
  is_Some (properties_of c !! name).
Proof.
  intros H.
  destruct c; simpl in H;
    repeat (apply elem_of_cons in H as [-> | H]);
    try (apply elem_of_nil in H; contradiction);
    vm_compute; eexists; reflexivity.
Qed.

(** What a class-body line does to the entry of a name depends on that
    entry alone. *)
Lemma declare_agree (name : string) (T T' : gmap string descriptor)
    (d : declaration) :
  T !! name = T' !! name -> declare T d !! name = declare T' d !! name.
Proof.
  intros H. destruct d as [n dd | n v]; simpl.
  - rewrite !lookup_insert. destruct (decide (n = name)); [ reflexivity | exact H ].
  - rewrite !lookup_alter.
    destruct (decide (n = name)) as [-> | _]; [ rewrite H; reflexivity | exact H ].
Qed.

Lemma foldl_declare_agree (name : string) (body : list declaration) :
  ∀ T T', T !! name = T' !! name ->
          foldl declare T body !! name = foldl declare T' body !! name.
Proof.
  induction body as [| d body IH]; intros T T' H; [ exact H | ].
  simpl. apply IH, declare_agree, H.
Qed.

(** A body that does not mention a name leaves its entry as it was. *)
Lemma foldl_declare_not_mentioned (name : string) (body : list declaration) :
  name ∉ mentioned_names body ->
  ∀ T, foldl declare T body !! name = T !! name.
Proof.
  induction body as [| d body IH]; intros Hn T; [ reflexivity | ].
  cbn [mentioned_names map] in Hn. apply not_elem_of_cons in Hn as [Hne Hn].
  cbn [foldl]. rewrite (IH Hn).
  destruct d as [n dd | n v]; simpl.
  - apply lookup_insert_ne. congruence.
  - apply lookup_alter_ne. congruence.
Qed.

(** A body that defines a name decides its entry, whatever came before. *)
Lemma foldl_declare_defined (name : string) (body : list declaration) :
  name ∈ defined_names body ->
  ∀ T T', foldl declare T body !! name = foldl declare T' body !! name.
Proof.
  induction body as [| d body IH]; intros Hin T T'.
  - apply elem_of_nil in Hin. contradiction.
  - cbn [foldl]. destruct d as [n dd | n v]; cbn in Hin.
    + apply elem_of_cons in Hin as [-> | Hin]; [ | apply IH, Hin ].
      apply foldl_declare_agree. simpl. rewrite !lookup_insert_eq. reflexivity.
    + apply IH, Hin.
Qed.

(** The names of a table are the ones it had and the ones defined since:
    an override adds none. *)
Lemma foldl_declare_is_Some (name : string) (body : list declaration) :
  ∀ T, is_Some (foldl declare T body !! name)
       ↔ is_Some (T !! name) ∨ name ∈ defined_names body.
Proof.
  induction body as [| d body IH]; intros T.
  - cbn. rewrite elem_of_nil. tauto.
  - cbn [foldl]. rewrite IH. destruct d as [n dd | n v]; cbn.
    + rewrite lookup_insert_is_Some', elem_of_cons.
      intuition (subst; auto).
    + rewrite lookup_alter.
      destruct (decide (n = name)) as [-> | ?];
        [ rewrite fmap_is_Some | ]; tauto.
Qed.

Lemma defined_names_app (xs ys : list declaration) :
  defined_names (xs ++ ys) = defined_names xs ++ defined_names ys.
Proof.
  induction xs as [| [n d | n v] xs IH]; cbn; [ reflexivity | | exact IH ].
  f_equal. exact IH.
Qed.

(** Whatever [Widget] declares, the properties that [AbstractButton] and
    the class define are in the table of the class as this file declares
    them. *)
Lemma class_table_agrees (W : list declaration) (c : widget_class)
    (name : string) :
  name ∈ ["label"; "icon"] ++ own_properties c ->
  class_table W c !! name = properties_of c !! name.
Proof.
  intros H. unfold class_table, properties_of.
  rewrite (app_assoc ButtonLike_body W).
  rewrite (foldl_app declare (ButtonLike_body ++ W)).
  rewrite (foldl_app declare ButtonLike_body
             (AbstractButton_body ++ class_body c)).
  apply foldl_declare_defined.
  rewrite defined_names_app. exact H.
Qed.

(** X7: whatever [Widget] and its bases declare, a class has the
    properties they define, the ones it inherits from [ButtonLike] and
    [AbstractButton] and the ones its own body adds, and no other; the
    properties that [AbstractButton] and the class define, and every
    property that [Widget] does not mention, are in its table as this file
    declares them; and [label] and [icon] have the same type in all three
    classes (an override changes a default, never a type). *)
Theorem properties_with_Widget :
  ∀ (W : list declaration) (c : widget_class) (name : string),
    (is_Some (class_table W c !! name)
     ↔ name ∈ defined_names W ++ inherited_properties ++ own_properties c)
    ∧ (name ∈ ["label"; "icon"] ++ own_properties c ->
       class_table W c !! name = properties_of c !! name)
    ∧ (name ∉ mentioned_names W ->
       class_table W c !! name = properties_of c !! name)
    ∧ ∀ (c' : widget_class) (d d' : descriptor),
        name ∈ ["label"; "icon"] ->
        class_table W c !! name = Some d ->
        class_table W c' !! name = Some d' ->
        type_of d = type_of d'.
Proof.
  intros W c name. repeat split.
  - unfold class_table. rewrite foldl_declare_is_Some, lookup_empty.
    rewrite !defined_names_app.
    change (defined_names (class_body c)) with (own_properties c).
    intros [[? [=]] | H]. revert H.
    change (defined_names ButtonLike_body) with ["button_type"].
    change (defined_names AbstractButton_body) with ["label"; "icon"].
    unfold inherited_properties.
    rewrite !elem_of_app, !elem_of_cons. tauto.
  - unfold class_table. rewrite foldl_declare_is_Some.
    rewrite !defined_names_app.
    change (defined_names (class_body c)) with (own_properties c).
    intros H. right. revert H.
    change (defined_names ButtonLike_body) with ["button_type"].
    change (defined_names AbstractButton_body) with ["label"; "icon"].
    unfold inherited_properties.
    rewrite !elem_of_app, !elem_of_cons. tauto.
  - apply class_table_agrees.
  - intros Hn. unfold class_table, properties_of.
    rewrite (app_assoc ButtonLike_body W).
    rewrite (foldl_app declare (ButtonLike_body ++ W)).
    rewrite (foldl_app declare ButtonLike_body
               (AbstractButton_body ++ class_body c)).
    apply foldl_declare_agree.
    rewrite (foldl_app declare ButtonLike_body W).
    apply foldl_declare_not_mentioned, Hn.
  - intros c' d d' Hname H H'.
    rewrite class_table_agrees in H, H'
      by (apply elem_of_app; left; exact Hname).
    apply properties_of_cases in H, H'.
    destruct H as [[-> E] | [[-> E] | [[-> E] | [(_ & -> & E)
          | [(_ & -> & E) | (_ & -> & E)]]]]];
      rewrite E;
      destruct H' as [[N E'] | [[N E'] | [[N E'] | [(_ & N & E')
          | [(_ & N & E') | (_ & N & E')]]]]];
      try discriminate N; rewrite E'; reflexivity.
Qed.

(** ** The menu of a dropdown, again *)

Lemma menu_value_valid (value : pyval) :
  menu_value value ->
  properties.is_valid
    (properties.Either [properties.String; properties.Instance "Callback"])
    value = true.
Proof.
  intros [s | mro oid Hmro]; simpl; [ reflexivity | ].
  rewrite orb_false_r. apply bool_decide_eq_true_2, Hmro.
Qed.

Lemma menu_entry_valid (entry : pyval) :
  menu_entry entry -> properties.is_valid menu_item entry = true.
Proof.
  intros [ | text | text value Hv | text value Hv ]; try reflexivity;
    apply menu_value_valid in Hv; simpl in *;
    rewrite Hv; reflexivity.
Qed.

(** X8: the type declared for [Dropdown.menu] takes exactly the lists
    whose entries are separators, texts, or (text, value) pairs with a
    string or a [Callback] as value: every such list is valid, and nothing
    else is. *)
Theorem menu_takes_exactly_its_entries :
  ∀ v : pyval,
    (∃ d, properties_of Dropdown !! "menu" = Some d
          ∧ properties.is_valid (type_of d) v = true)
    ↔ ∃ entries : list pyval, v = VList entries ∧ Forall menu_entry entries.
Proof.
  intros v. split.
  - intros (d & Hd & Hvalid).
    rewrite Dropdown_menu_declared in Hd. injection Hd as <-.
    apply menu_shape, Hvalid.
  - intros (entries & -> & Hentries).
    eexists. split; [ apply Dropdown_menu_declared | ].
    change (forallb (properties.is_valid menu_item) entries = true).
    induction Hentries as [| e entries He _ IH]; [ reflexivity | ].
    change (properties.is_valid menu_item e
            && forallb (properties.is_valid menu_item) entries = true).
    apply andb_true_intro. split; [ apply menu_entry_valid, He | exact IH ].
Qed.

(** ** Well-typed widgets *)

Lemma defaults_are_valid (c : widget_class) (name : string) (d : descriptor) :
  properties_of c !! name = Some d -> default_is_valid d = true.
Proof.
  intros H. destruct c; list_properties H; vm_compute; reflexivity.
Qed.

Lemma new_well_typed (c : widget_class) : well_typed (new c).
Proof.
  intros name d Hd. simpl in Hd.
  pose proof (defaults_are_valid c name d Hd) as Hv.
  unfold default_is_valid in Hv.
  destruct (default_of d) as [v |] eqn:Hdef; [ | discriminate ].
  exists v. split; [ | exact Hv ].
  unfold attr. simpl. rewrite Hd, lookup_empty. exact Hdef.
Qed.

Lemma perform_class (o : operation) (s : world) :
  w_class (final (perform o s)) = w_class s.
Proof.
  destruct o as [name v | m h]; simpl; [ apply setattr_class | ].
  pose proof (invoke_preserves base_classes declared_state
                base_classes_frame_declared_state (w_class s) m h s) as H.
  unfold declared_state in H. injection H as Hc _. exact Hc.
Qed.

Lemma perform_keeps_well_typed (o : operation) (s : world) :
  well_typed s -> well_typed (final (perform o s)).
Proof.
  intros Hs name d Hd. rewrite perform_class in Hd.
  destruct (Hs name d Hd) as (v & Hv & Hvalid).
  destruct o as [name' v' | m h]; simpl.
  - destruct (decide (name' = name)) as [-> | Hne].
    + destruct (setattr_effect name v' s)
        as [Hsame | (d' & Hd' & Hvalid' & Hnew)].
      * exists v. rewrite Hsame. auto.
      * exists v'. split; [ exact Hnew | congruence ].
    + exists v. rewrite setattr_other by exact Hne. auto.
  - pose proof (invoke_preserves base_classes declared_state
                  base_classes_frame_declared_state (w_class s) m h s) as H.
    unfold declared_state in H. injection H as _ Ha.
    exists v. rewrite Ha. auto.
Qed.

Lemma after_keeps_well_typed (ops : list operation) :
  ∀ s, well_typed s -> well_typed (after ops s) ∧ w_class (after ops s) = w_class s.
Proof.
  induction ops as [| o ops IH]; intros s Hs; [ auto | ].
  simpl.
  destruct (IH _ (perform_keeps_well_typed o s Hs)) as [Hw Hc].
  split; [ exact Hw | ]. rewrite Hc. apply perform_class.
Qed.

(** X9: every default declared in this file is valid for its declared
    type, and the properties this file declares stay well typed: after any
    history of mutations and of [on_click] / [js_on_click] calls on a new
    widget, each of [button_type], [label], [icon] and of the properties
    the class adds ([active]; [split], [menu]) has a value that is valid
    for its declared type. *)
Theorem declared_properties_stay_valid
    (c : widget_class) (ops : list operation) (name : string) :
  name ∈ inherited_properties ++ own_properties c ->
  ∃ (d : descriptor) (v : pyval),
    properties_of c !! name = Some d
    ∧ attr (after ops (new c)) name = Some v
    ∧ properties.is_valid (type_of d) v = true.
Proof.
  intros Hname.
  destruct (declared_here c name Hname) as [d Hd].
  destruct (after_keeps_well_typed ops (new c) (new_well_typed c)) as [Hw Hc].
  destruct (Hw name d) as (v & Hv & Hvalid); [ rewrite Hc; exact Hd | ].
  exists d, v. auto.
Qed.

(** ** The further properties at work *)

(** With the registration for [MenuItemClick] refused, [Dropdown.on_click]
    raises what the refusal raises, after the notice and the registration
    for [ButtonClick] were made. *)
Lemma Dropdown_click_stops_at_MenuItemClick :
  invoke (F := refusing no_menu_item_click) Dropdown on_click (VFunc 0) []
  = (Raise (TypeError "menu_item_click"),
     calls_of Dropdown on_click (VFunc 0)).
Proof.
  exact (click_stops_at_first_exception (refusing no_menu_item_click)
           Dropdown on_click (VFunc 0) []
           (firstn 2 (calls_of Dropdown on_click (VFunc 0))) []
           (Call_on_event MenuItemClick (VFunc 0))
           (TypeError "menu_item_click")
           eq_refl eq_refl eq_refl).
Defined.

(** The second registration of [Dropdown.js_on_click] is a JavaScript one,
    for an event, and carries the callback itself. *)
Lemma Dropdown_js_registration_kind :
  In (Call_js_on_event MenuItemClick (VInst ["CustomJS"; "Callback"] 0))
     (registrations_of Dropdown js_on_click (VInst ["CustomJS"; "Callback"] 0))
  ∧ registration_side
      (Call_js_on_event MenuItemClick (VInst ["CustomJS"; "Callback"] 0))
    = Some js_side
  ∧ carried (Call_js_on_event MenuItemClick (VInst ["CustomJS"; "Callback"] 0))
    = Some (VInst ["CustomJS"; "Callback"] 0).
Proof.
  assert (Hin : In (Call_js_on_event MenuItemClick
                      (VInst ["CustomJS"; "Callback"] 0))
                   (registrations_of Dropdown js_on_click
                      (VInst ["CustomJS"; "Callback"] 0)))
    by (simpl; auto).
  split; [ exact Hin | ].
  pose proof (registrations_keep_to_their_kind Dropdown js_on_click
                (VInst ["CustomJS"; "Callback"] 0) _ Hin) as (Hs & _ & Hc).
  split; [ exact Hs | exact Hc ].
Defined.

(** Called with the new value alone, the closure raises. *)
Lemma closure_refuses_one_argument :
  length [VBool true] ≠ 3
  ∧ ∃ msg,
      call_value (VLambdaNew (VFunc 0)) [VBool true] (new Toggle)
      = (Raise (TypeError msg), new Toggle).
Proof.
  assert (Hlen : length [VBool true] ≠ 3) by (simpl; lia).
  split; [ exact Hlen | ].
  exact (closure_takes_three_arguments (VFunc 0) [VBool true] (new Toggle) Hlen).
Defined.

(** Renaming a [Toggle] calls no handler registered through [on_click]. *)
Lemma Toggle_handler_ignores_label :
  w_change_callbacks (final (Toggle.on_click (VFunc 7) (new Toggle)))
  = map on_click_entry [7]
  ∧ "label" ≠ "active"
  ∧ w_invoked
      (final (setattr "label" (VStr "On")
                (final (Toggle.on_click (VFunc 7) (new Toggle)))))
    = w_invoked (final (Toggle.on_click (VFunc 7) (new Toggle))).
Proof.
  assert (Hne : "label" ≠ "active") by discriminate.
  split; [ reflexivity | ].
  split; [ exact Hne | ].
  exact (Toggle_handlers_ignore_other_attributes
           (final (Toggle.on_click (VFunc 7) (new Toggle))) [7]
           "label" (VStr "On") eq_refl Hne).
Defined.

(** After a valid and an invalid mutation of its menu and a call of
    [on_click], a [Dropdown] has a valid menu. *)
Lemma Dropdown_menu_stays_valid :
  "menu" ∈ inherited_properties ++ own_properties Dropdown
  ∧ ∃ (d : descriptor) (v : pyval),
      properties_of Dropdown !! "menu" = Some d
      ∧ attr (after [ Set_attr "menu" sample_menu;
                      Click on_click (VFunc 0);
                      Set_attr "menu" (VInt 3) ] (new Dropdown)) "menu"
        = Some v
      ∧ properties.is_valid (type_of d) v = true.
Proof.
  assert (Hname : "menu" ∈ inherited_properties ++ own_properties Dropdown)
    by (cbn; repeat constructor).
  split; [ exact Hname | ].
  exact (declared_properties_stay_valid Dropdown
           [ Set_attr "menu" sample_menu;
             Click on_click (VFunc 0);
             Set_attr "menu" (VInt 3) ]
           "menu" Hname).
Defined.
